(** * EditClient: the load / edit / submit workflow of the client page

    A shallow embedding of [src/pages/clients/EditClient.tsx].

    The component keeps five [useState] cells and has two asynchronous
    handlers, [loadData] (run by the effect on [id]) and [handleSubmit].
    Both are embedded as programs of a small free monad whose nodes are the
    effects the handlers perform: state setters, [toast], [navigate],
    [console.error] and the three awaited calls.  An interpreter runs a
    program against an environment that answers the awaited calls, threads
    the component state and records every effect in a log. *)

From stdpp Require Import gmap strings list fin_maps.

Local Open Scope string_scope.

(** ** Data *)

(** JavaScript values as far as the handlers look at them.  The submitted
    [data] is typed [any]; a property that is absent reads as
    [undefined]. *)
Inductive jsval : Type :=
| JUndefined
| JNull
| JStr (s : string).

(** A plain JS object: own properties by name. *)
Abbreviation obj := (gmap string jsval).

(** [o.k] *)
Definition get (o : obj) (k : string) : jsval := default JUndefined (o !! k).

(** [a === b] on the values above. *)
Definition strict_eq (a b : jsval) : bool :=
  match a, b with
  | JUndefined, JUndefined => true
  | JNull, JNull => true
  | JStr s, JStr t => bool_decide (s = t)
  | _, _ => false
  end.

(** Truthiness of a string: the empty string is falsy. *)
Definition truthy (s : string) : bool :=
  match s with
  | EmptyString => false
  | String _ _ => true
  end.

(** An entry of the [branches] state: [{ id: string; name: string }]. *)
Module Branch.
Record t : Type := mk { id : string; name : string }.
End Branch.

(** What [fetchClientById] and [updateClient] resolve to.  The module
    [@/utils/clientUtils] is not part of the sources; the fields are the
    ones the component reads: [success], [data] and [message]. *)
Record ApiResult : Type := mkApiResult {
  success : bool;
  data : option obj;
  message : string
}.

(** A thrown value, as far as [catch] distinguishes them:
    [error instanceof Error ? error.message : ...]. *)
Inductive thrown : Type :=
| ErrorObj (msg : string)
| OtherThrown.

(** What the Supabase query resolves to: [{ data, error }]. *)
Record BranchesResponse : Type := mkBranchesResponse {
  branchesData : option (list Branch.t);
  branchesError : option thrown
}.

(** [toast({ variant, title, description })]; no [variant] is the default
    (success) style. *)
Inductive variant : Type := VDefault | VWarning | VDestructive.

Record Toast : Type := mkToast {
  toast_variant : variant;
  toast_title : string;
  toast_description : string
}.

(** ** Component state: the five [useState] cells *)

Record State : Type := mkState {
  client : option obj;
  branches : list Branch.t;
  isLoading : bool;
  isSubmitting : bool;
  error : option string
}.

(** The state at mount. *)
Definition initial_state : State :=
  {| client := None; branches := []; isLoading := true;
     isSubmitting := false; error := None |}.

(** ** Effects *)

(** Synchronous effects. *)
Inductive action : Type :=
| SetClient (c : obj)
| SetBranches (bs : list Branch.t)
| SetIsLoading (b : bool)
| SetIsSubmitting (b : bool)
| SetError (e : option string)
| ToastA (t : Toast)
| Navigate (path : string)
| ConsoleError (e : thrown).

(** Awaited calls. *)
Inductive request : Type :=
| FetchClientById (id : string)
| SelectActiveBranches
| UpdateClient (c : obj).

Definition response (r : request) : Type :=
  match r with
  | FetchClientById _ => ApiResult
  | SelectActiveBranches => BranchesResponse
  | UpdateClient _ => ApiResult
  end.

(** The value of the cells once an action has been carried out: a setter
    replaces its cell, the other actions leave the cells alone.  What is on
    the page, and whether the component is still there after a [navigate],
    is told by [pages] below. *)
Definition apply_action (a : action) (st : State) : State :=
  match a with
  | SetClient c =>
      {| client := Some c; branches := branches st; isLoading := isLoading st;
         isSubmitting := isSubmitting st; error := error st |}
  | SetBranches bs =>
      {| client := client st; branches := bs; isLoading := isLoading st;
         isSubmitting := isSubmitting st; error := error st |}
  | SetIsLoading b =>
      {| client := client st; branches := branches st; isLoading := b;
         isSubmitting := isSubmitting st; error := error st |}
  | SetIsSubmitting b =>
      {| client := client st; branches := branches st; isLoading := isLoading st;
         isSubmitting := b; error := error st |}
  | SetError e =>
      {| client := client st; branches := branches st; isLoading := isLoading st;
         isSubmitting := isSubmitting st; error := e |}
  | ToastA _ | Navigate _ | ConsoleError _ => st
  end.

(** ** Programs: a free monad with exceptions *)

Inductive prog (A : Type) : Type :=
| Ret (a : A)
| Throw (e : thrown)
| Act (a : action) (k : prog A)
| Await (r : request) (k : thrown + response r -> prog A).

Arguments Ret {A} a.
Arguments Throw {A} e.
Arguments Act {A} a k.
Arguments Await {A} r k.

Fixpoint bind {A B : Type} (p : prog A) (f : A -> prog B) : prog B :=
  match p with
  | Ret a => f a
  | Throw e => Throw e
  | Act a k => Act a (bind k f)
  | Await r k => Await r (fun x => bind (k x) f)
  end.

(** [try { p } catch (e) { h e }] *)
Fixpoint try_catch {A : Type} (p : prog A) (h : thrown -> prog A) : prog A :=
  match p with
  | Ret a => Ret a
  | Throw e => h e
  | Act a k => Act a (try_catch k h)
  | Await r k => Await r (fun x => try_catch (k x) h)
  end.

(** [try { p } finally { f }]: [f] runs on both exits, the exit of [p] is
    kept unless [f] itself throws. *)
Fixpoint try_finally {A : Type} (p : prog A) (f : prog unit) : prog A :=
  match p with
  | Ret a => bind f (fun _ => Ret a)
  | Throw e => bind f (fun _ => Throw e)
  | Act a k => Act a (try_finally k f)
  | Await r k => Await r (fun x => try_finally (k x) f)
  end.

Declare Scope prog_scope.
Delimit Scope prog_scope with prog.
Notation "x <- p ;; q" := (bind p (fun x => q))
  (at level 100, p at next level, right associativity) : prog_scope.
Notation "p ;; q" := (bind p (fun _ => q))
  (at level 100, right associativity) : prog_scope.
Local Open Scope prog_scope.

Definition act (a : action) : prog unit := Act a (Ret tt).

(** [await r]: a rejected promise is thrown at the [await]. *)
Definition await (r : request) : prog (response r) :=
  Await r (fun x => match x with inl e => Throw e | inr v => Ret v end).

Definition setClient (c : obj) := act (SetClient c).
Definition setBranches (bs : list Branch.t) := act (SetBranches bs).
Definition setIsLoading (b : bool) := act (SetIsLoading b).
Definition setIsSubmitting (b : bool) := act (SetIsSubmitting b).
Definition setError (e : option string) := act (SetError e).
Definition toast (t : Toast) := act (ToastA t).
Definition navigate (path : string) := act (Navigate path).
Definition console_error (e : thrown) := act (ConsoleError e).

(** ** The handlers *)

(** The mock data of lines 51-55. *)
Definition fallback_branches : list Branch.t :=
  [ Branch.mk "1" "Main Branch";
    Branch.mk "2" "East Branch";
    Branch.mk "3" "West Branch" ].

Definition mock_warning : Toast :=
  {| toast_variant := VWarning;
     toast_title := "Using mock branch data";
     toast_description := "No active branches found in the database" |}.

Definition unexpected : string := "An unexpected error occurred".

(** [loadData], lines 25-69. *)
Definition loadData (id : string) : prog unit :=
  setIsLoading true ;;
  setError None ;;
  try_finally
    (try_catch
       (clientResult <- await (FetchClientById id) ;;
        match success clientResult, data clientResult with
        | true, Some d => setClient d
        | _, _ => setError (Some (message clientResult))
        end ;;
        resp <- await SelectActiveBranches ;;
        match branchesError resp with
        | Some e => Throw e
        | None => Ret tt
        end ;;
        match branchesData resp with
        | Some (b :: bs) => setBranches (b :: bs)
        | _ =>
            setBranches fallback_branches ;;
            toast mock_warning
        end)
       (fun err =>
          setError (Some unexpected) ;;
          console_error err))
    (setIsLoading false).

(** The effect of lines 24-74: [if (id) loadData()].  [useParams] may give
    no [id], and an empty one is falsy. *)
Definition effect (id : option string) : prog unit :=
  match id with
  | Some i => if truthy i then loadData i else Ret tt
  | None => Ret tt
  end.

(** [branches.some(branch => branch.id === data.branchId)] *)
Definition branch_exists (bs : list Branch.t) (v : jsval) : bool :=
  existsb (fun b => strict_eq (JStr (Branch.id b)) v) bs.

(** [{ ...client, ...data, dateOfBirth: data.dateOfBirth }] *)
Definition merged (c d : obj) : obj :=
  <["dateOfBirth" := get d "dateOfBirth"]> (d ∪ c).

Definition updated_toast : Toast :=
  {| toast_variant := VDefault;
     toast_title := "Client updated";
     toast_description := "The client has been updated successfully" |}.

Definition update_error_toast (description : string) : Toast :=
  {| toast_variant := VDestructive;
     toast_title := "Error updating client";
     toast_description := description |}.

(** [handleSubmit], lines 76-118.  [client] and [branches] are the values
    of the render the handler was created in, passed here as [st]. *)
Definition handleSubmit (st : State) (d : obj) : prog unit :=
  match client st with
  | None => Ret tt
  | Some c =>
      setIsSubmitting true ;;
      try_catch
        ((if negb (branch_exists (branches st) (get d "branchId"))
          then Throw (ErrorObj "Selected branch does not exist")
          else Ret tt) ;;
         result <- await (UpdateClient (merged c d)) ;;
         setIsSubmitting false ;;
         if success result
         then toast updated_toast ;; navigate "/clients"
         else toast (update_error_toast (message result)))
        (fun err =>
           console_error err ;;
           setIsSubmitting false ;;
           toast (update_error_toast
                    match err with
                    | ErrorObj m => m
                    | OtherThrown => unexpected
                    end))
  end.

(** ** Running a handler *)

(** The collaborators that answer the awaited calls.  Each may resolve
    ([inr]) or reject ([inl]). *)
Record Env : Type := mkEnv {
  fetchClientById : string -> thrown + ApiResult;
  selectActiveBranches : thrown + BranchesResponse;
  updateClient : obj -> thrown + ApiResult
}.

Definition answer (env : Env) (r : request) : thrown + response r :=
  match r with
  | FetchClientById id => fetchClientById env id
  | SelectActiveBranches => selectActiveBranches env
  | UpdateClient c => updateClient env c
  end.

(** What the log records, in order: a synchronous effect, an awaited call
    being issued, and the teardown of the component. *)
Inductive entry : Type :=
| Did (a : action)
| Requested (r : request)
| Teardown.

Inductive outcome (A : Type) : Type :=
| Returned (a : A)
| Threw (e : thrown).

Arguments Returned {A} a.
Arguments Threw {A} e.

Record Run (A : Type) : Type := mkRun {
  final : State;
  log : list entry;
  result : outcome A
}.

Arguments mkRun {A} final log result.
Arguments final {A} r.
Arguments log {A} r.
Arguments result {A} r.

Definition logged {A : Type} (e : entry) (r : Run A) : Run A :=
  {| final := final r; log := e :: log r; result := result r |}.

(** Run to completion: every awaited call is issued, answered by [env],
    and the continuation resumed with the answer. *)
Fixpoint run {A : Type} (env : Env) (p : prog A) (st : State) : Run A :=
  match p with
  | Ret a => mkRun st [] (Returned a)
  | Throw e => mkRun st [] (Threw e)
  | Act a k => logged (Did a) (run env k (apply_action a st))
  | Await r k => logged (Requested r) (run env (k (answer env r)) st)
  end.

(** Run up to the first [await]: the handler returns to the event loop
    with the call in flight and its continuation pending. *)
Inductive suspended (A : Type) : Type :=
| Finished (o : outcome A)
| Pending (r : request) (k : thrown + response r -> prog A).

Arguments Finished {A} o.
Arguments Pending {A} r k.

Fixpoint start {A : Type} (p : prog A) (st : State)
  : State * list entry * suspended A :=
  match p with
  | Ret a => (st, [], Finished (Returned a))
  | Throw e => (st, [], Finished (Threw e))
  | Act a k =>
      let '(st', l, s) := start k (apply_action a st) in (st', Did a :: l, s)
  | Await r k => (st, [Requested r], Pending r k)
  end.

(** Run to completion with the component torn down while the [n]-th
    awaited call (counting from 0) is in flight.  The effect callback
    returns no cleanup function and the handlers keep no cancellation flag,
    so a program has nothing to consult: the pending continuation is
    resumed by the promise as always.  The log records the calls the
    handler makes; what React does with a setter call of an unmounted
    component is not the handler's doing. *)
Fixpoint run_teardown {A : Type} (env : Env) (n : nat) (p : prog A) (st : State)
  : Run A :=
  match p with
  | Ret a => mkRun st [] (Returned a)
  | Throw e => mkRun st [] (Threw e)
  | Act a k => logged (Did a) (run_teardown env n k (apply_action a st))
  | Await r k =>
      match n with
      | O => logged (Requested r) (logged Teardown (run env (k (answer env r)) st))
      | S m => logged (Requested r) (run_teardown env m (k (answer env r)) st)
      end
  end.

(** ** Reading the log *)

Definition requests (l : list entry) : list request :=
  omap (fun e => match e with Requested r => Some r | _ => None end) l.

Definition updates (l : list entry) : list obj :=
  omap (fun e => match e with Requested (UpdateClient c) => Some c | _ => None end) l.

Definition toasts (l : list entry) : list Toast :=
  omap (fun e => match e with Did (ToastA t) => Some t | _ => None end) l.

Definition navigations (l : list entry) : list string :=
  omap (fun e => match e with Did (Navigate p) => Some p | _ => None end) l.

(** The log with the teardown marker taken out. *)
Definition without_teardown (l : list entry) : list entry :=
  omap (fun e => match e with Teardown => None | _ => Some e end) l.

(** What follows the teardown marker. *)
Fixpoint after_teardown (l : list entry) : list entry :=
  match l with
  | [] => []
  | Teardown :: l' => l'
  | _ :: l' => after_teardown l'
  end.

(** ** The workflow state the page shows

    Lines 143-161: [isLoading ? ... : error ? ... : client ? <ClientForm
    isSubmitting=... /> : null].  [error] is tested for truthiness, so an
    empty message does not select the error panel. *)
Inductive WorkflowState : Type :=
| Loading
| Error (msg : string)
| Ready (record : obj) (referenceSet : list Branch.t)
| Submitting (record : obj) (referenceSet : list Branch.t)
| Blank.

Definition form_state (st : State) : WorkflowState :=
  match client st with
  | Some c =>
      if isSubmitting st then Submitting c (branches st) else Ready c (branches st)
  | None => Blank
  end.

Definition workflow_state (st : State) : WorkflowState :=
  if isLoading st then Loading
  else match error st with
       | Some m => if truthy m then Error m else form_state st
       | None => form_state st
       end.

(** The state a log leads to: the setters replayed in order. *)
Definition replay (l : list entry) (st : State) : State :=
  foldl (fun s e => match e with Did a => apply_action a s | _ => s end) st l.

(** ** What counts as a failed fetch *)

(** The record fetch failed: the call rejected, or it resolved to something
    other than [success] with [data] (line 33). *)
Definition fetch_failed (r : thrown + ApiResult) : bool :=
  match r with
  | inl _ => true
  | inr res => match success res, data res with
               | true, Some _ => false
               | _, _ => true
               end
  end.

(** The failure comes with a message the page can show: a rejection is
    given the generic message by the [catch], a failed result brings its
    own, which may be empty. *)
Definition has_message (r : thrown + ApiResult) : bool :=
  match r with
  | inl _ => true
  | inr res => truthy (message res)
  end.

(** The reference fetch failed: the call rejected or resolved with an
    [error] (line 45). *)
Definition branches_failure (r : thrown + BranchesResponse) : option thrown :=
  match r with
  | inl e => Some e
  | inr resp => branchesError resp
  end.

(** The reference fetch succeeded without rows: [data] is [null] or
    empty (line 47). *)
Definition no_rows (resp : BranchesResponse) : bool :=
  match branchesError resp, branchesData resp with
  | None, None => true
  | None, Some [] => true
  | _, _ => false
  end.

(** The setter call of lines 33-37. *)
Definition record_step (res : ApiResult) : action :=
  match success res, data res with
  | true, Some d => SetClient d
  | _, _ => SetError (Some (message res))
  end.

(** ** Scenarios *)

Module Scenario.

(** The record of the spec's scenario: its [branchId] is ["9"]. *)
Definition client42 : obj :=
  {[ "id" := JStr "42"; "name" := JStr "Ann";
     "dateOfBirth" := JStr "1990-01-01"; "branchId" := JStr "9" ]}.

Definition branch1 : Branch.t := Branch.mk "1" "North".
Definition branch2 : Branch.t := Branch.mk "2" "South".
Definition two_branches : list Branch.t := [branch1; branch2].

Definition found (c : obj) : ApiResult :=
  {| success := true; data := Some c; message := "" |}.
Definition not_found : ApiResult :=
  {| success := false; data := None; message := "Client not found" |}.
Definition silent_failure : ApiResult :=
  {| success := false; data := None; message := "" |}.
Definition saved : ApiResult :=
  {| success := true; data := None; message := "" |}.

Definition rows (bs : list Branch.t) : BranchesResponse :=
  {| branchesData := Some bs; branchesError := None |}.
Definition backend_error : BranchesResponse :=
  {| branchesData := None; branchesError := Some OtherThrown |}.

(** Everything succeeds. *)
Definition env_ok : Env :=
  {| fetchClientById := fun _ => inr (found client42);
     selectActiveBranches := inr (rows two_branches);
     updateClient := fun _ => inr saved |}.

(** No active branch in the database. *)
Definition env_no_rows : Env :=
  {| fetchClientById := fun _ => inr (found client42);
     selectActiveBranches := inr (rows []);
     updateClient := fun _ => inr saved |}.

(** The reference fetch reports an error. *)
Definition env_branches_error : Env :=
  {| fetchClientById := fun _ => inr (found client42);
     selectActiveBranches := inr backend_error;
     updateClient := fun _ => inr saved |}.

(** The record is not found. *)
Definition env_not_found : Env :=
  {| fetchClientById := fun _ => inr not_found;
     selectActiveBranches := inr (rows two_branches);
     updateClient := fun _ => inr saved |}.

(** The record fetch fails and brings an empty message. *)
Definition env_silent : Env :=
  {| fetchClientById := fun _ => inr silent_failure;
     selectActiveBranches := inr (rows two_branches);
     updateClient := fun _ => inr saved |}.

(** The record fetch rejects. *)
Definition env_rejects : Env :=
  {| fetchClientById := fun _ => inl (ErrorObj "network");
     selectActiveBranches := inr (rows two_branches);
     updateClient := fun _ => inr saved |}.

(** The form with the record loaded, idle and with a submit in flight. *)
Definition ready : State :=
  {| client := Some client42; branches := two_branches; isLoading := false;
     isSubmitting := false; error := None |}.
Definition submitting : State :=
  {| client := Some client42; branches := two_branches; isLoading := false;
     isSubmitting := true; error := None |}.

(** Edits: a branch of the loaded set, and one that is not. *)
Definition edit_ok : obj :=
  {[ "name" := JStr "Bob"; "dateOfBirth" := JStr "1990-01-01";
     "branchId" := JStr "1" ]}.
Definition edit_unknown_branch : obj :=
  {[ "name" := JStr "Bob"; "dateOfBirth" := JStr "1990-01-01";
     "branchId" := JStr "7" ]}.

End Scenario.

(** ** What a load brings *)

(** The record the fetch brought, if it did: line 33. *)
Definition fetched_record (r : thrown + ApiResult) : option obj :=
  match r with
  | inl _ => None
  | inr res => match success res, data res with
               | true, Some d => Some d
               | _, _ => None
               end
  end.

(** The reference fetch was made and came back without error and without
    rows: the case of lines 49-62. *)
Definition falls_back (env : Env) (id : string) : bool :=
  match fetchClientById env id, selectActiveBranches env with
  | inr _, inr resp => no_rows resp
  | _, _ => false
  end.


(** ** What the page shows while a handler runs

    A setter call does not change what is on the page at once.  React
    collects the calls a handler makes in one synchronous stretch, up to
    its next [await] or to its end, and commits them together when the
    handler yields.  A [navigate] made in the stretch takes effect with
    the same commit: the route changes and the component is unmounted, as
    it is by a teardown.  Nothing a handler does later brings it back. *)
Inductive Page : Type :=
| Mounted (st : State)
| Unmounted.

Definition commit (cur : State) (gone : bool) : Page :=
  if gone then Unmounted else Mounted cur.

(** The pages committed along a log: one at every awaited call and one at
    the end.  [cur] carries the setter calls made so far, [gone] whether
    the component has been unmounted. *)
Fixpoint commits (l : list entry) (cur : State) (gone : bool) : list Page :=
  match l with
  | [] => [commit cur gone]
  | Requested _ :: l' => commit cur gone :: commits l' cur gone
  | Did (Navigate _) :: l' => commits l' cur true
  | Did a :: l' => commits l' (apply_action a cur) gone
  | Teardown :: l' => commits l' cur true
  end.

Definition pages (l : list entry) (st : State) : list Page := commits l st false.

(** * Properties *)

(** ** The interpreter *)

Arguments merged : simpl never.

(** The final state is the log replayed from the initial state. *)
Lemma run_final_replay {A : Type} (env : Env) (p : prog A) :
  forall st, final (run env p st) = replay (log (run env p st)) st.
Proof.
  induction p as [a | e | a k IH | r k IH]; intros st; simpl.
  - reflexivity.
  - reflexivity.
  - apply IH.
  - apply IH.
Qed.

(** A run without teardown logs no teardown. *)
Lemma run_no_teardown {A : Type} (env : Env) (p : prog A) :
  forall st, without_teardown (log (run env p st)) = log (run env p st).
Proof.
  induction p as [a | e | a k IH | r k IH]; intros st; simpl.
  - reflexivity.
  - reflexivity.
  - unfold without_teardown in *. simpl. f_equal. apply IH.
  - unfold without_teardown in *. simpl. f_equal. apply IH.
Qed.

(** Teardown changes nothing but the marker it leaves in the log. *)
Lemma run_teardown_log {A : Type} (env : Env) (p : prog A) :
  forall n st,
    without_teardown (log (run_teardown env n p st)) = log (run env p st).
Proof.
  induction p as [a | e | a k IH | r k IH]; intros n st; simpl.
  - reflexivity.
  - reflexivity.
  - unfold without_teardown in *. simpl. f_equal. apply IH.
  - destruct n as [| m]; simpl.
    + unfold without_teardown. simpl. f_equal. apply run_no_teardown.
    + unfold without_teardown in *. simpl. f_equal. apply IH.
Qed.

(** Membership in a list that is written out. *)
Ltac in_list :=
  repeat first [apply list_elem_of_here | apply list_elem_of_further].

Ltac not_in_list H :=
  repeat (apply elem_of_cons in H as [H | H]; [discriminate |]);
  by apply elem_of_nil in H.

(** [branches.some(...)] finds a branch exactly when one has that id. *)
Lemma branch_exists_true (bs : list Branch.t) (v : jsval) :
  branch_exists bs v = true <-> exists b, b ∈ bs /\ v = JStr (Branch.id b).
Proof.
  unfold branch_exists. rewrite existsb_exists. split.
  - intros [b [Hin Heq]]. exists b. split; [by apply list_elem_of_In |].
    destruct v as [| | s]; simpl in Heq; try discriminate.
    apply bool_decide_eq_true in Heq. by subst.
  - intros [b [Hin ->]]. exists b. split; [by apply list_elem_of_In |].
    simpl. by apply bool_decide_eq_true.
Qed.

Lemma branch_exists_false (bs : list Branch.t) (v : jsval) :
  branch_exists bs v = false <-> forall b, b ∈ bs -> v ≠ JStr (Branch.id b).
Proof.
  split.
  - intros Hf b Hin Heq.
    assert (branch_exists bs v = true) as Ht by (apply branch_exists_true; eauto).
    congruence.
  - intros Hall. destruct (branch_exists bs v) eqn:E; [| reflexivity].
    apply branch_exists_true in E as [b [Hin Heq]]. by destruct (Hall b Hin).
Qed.

(** ** The equations of [loadData] *)

Section LoadData.
Variables (env : Env) (id : string) (st : State).

(** The record fetch rejects: the [catch] runs and the reference fetch is
    not issued. *)
Lemma loadData_rejected (e : thrown) :
  fetchClientById env id = inl e ->
  log (run env (loadData id) st) =
    [ Did (SetIsLoading true); Did (SetError None);
      Requested (FetchClientById id);
      Did (SetError (Some unexpected)); Did (ConsoleError e);
      Did (SetIsLoading false) ].
Proof. intros Hf. unfold loadData. simpl. rewrite Hf. reflexivity. Qed.

(** The reference fetch fails after the record fetch resolved. *)
Lemma loadData_branches_failed (res : ApiResult) (e : thrown) :
  fetchClientById env id = inr res ->
  branches_failure (selectActiveBranches env) = Some e ->
  log (run env (loadData id) st) =
    [ Did (SetIsLoading true); Did (SetError None);
      Requested (FetchClientById id); Did (record_step res);
      Requested SelectActiveBranches;
      Did (SetError (Some unexpected)); Did (ConsoleError e);
      Did (SetIsLoading false) ].
Proof.
  intros Hf Hb. unfold loadData, record_step. simpl. rewrite Hf.
  destruct res as [s d m]; simpl.
  destruct (selectActiveBranches env) as [e' | [bd be]] eqn:Hs;
    simpl in Hb; simplify_eq; destruct s, d; simpl; rewrite Hs; reflexivity.
Qed.

(** The reference fetch brings rows. *)
Lemma loadData_rows (res : ApiResult) (b : Branch.t) (bs : list Branch.t) :
  fetchClientById env id = inr res ->
  selectActiveBranches env =
    inr {| branchesData := Some (b :: bs); branchesError := None |} ->
  log (run env (loadData id) st) =
    [ Did (SetIsLoading true); Did (SetError None);
      Requested (FetchClientById id); Did (record_step res);
      Requested SelectActiveBranches;
      Did (SetBranches (b :: bs));
      Did (SetIsLoading false) ].
Proof.
  intros Hf Hs. unfold loadData, record_step. simpl. rewrite Hf.
  destruct res as [[] []]; simpl; rewrite Hs; reflexivity.
Qed.

(** The reference fetch brings no rows: the mock data and one warning. *)
Lemma loadData_no_rows (res : ApiResult) (resp : BranchesResponse) :
  fetchClientById env id = inr res ->
  selectActiveBranches env = inr resp ->
  no_rows resp = true ->
  log (run env (loadData id) st) =
    [ Did (SetIsLoading true); Did (SetError None);
      Requested (FetchClientById id); Did (record_step res);
      Requested SelectActiveBranches;
      Did (SetBranches fallback_branches); Did (ToastA mock_warning);
      Did (SetIsLoading false) ].
Proof.
  intros Hf Hs Hn. unfold loadData, record_step. simpl. rewrite Hf.
  destruct resp as [bd be]. unfold no_rows in Hn. simpl in Hn.
  destruct be; [discriminate |].
  destruct bd as [[| b bs] |]; try discriminate;
    destruct res as [[] []]; simpl; rewrite Hs; reflexivity.
Qed.

(** The four cases are all there is. *)
Lemma loadData_cases :
  (exists e, fetchClientById env id = inl e)
  \/ (exists res,
        fetchClientById env id = inr res
        /\ ((exists e, branches_failure (selectActiveBranches env) = Some e)
            \/ (exists b bs,
                  selectActiveBranches env =
                    inr {| branchesData := Some (b :: bs);
                           branchesError := None |})
            \/ (exists resp,
                  selectActiveBranches env = inr resp
                  /\ no_rows resp = true))).
Proof.
  destruct (fetchClientById env id) as [e | res]; [left; eauto |].
  right. exists res. split; [reflexivity |].
  destruct (selectActiveBranches env) as [e | [bd [e |]]]; simpl; eauto.
  destruct bd as [[| b bs] |]; eauto.
Qed.

(** [loadData] catches whatever is thrown: it always returns. *)
Lemma loadData_returns : result (run env (loadData id) st) = Returned tt.
Proof.
  unfold loadData. simpl.
  destruct (fetchClientById env id) as [e | [s d m]]; [reflexivity |].
  destruct (selectActiveBranches env) as [e | [bd [e |]]] eqn:Hs;
    destruct s, d; simpl; rewrite Hs; try reflexivity;
    destruct bd as [[| b bs] |]; reflexivity.
Qed.

End LoadData.

(** ** The equations of [handleSubmit] *)

Section HandleSubmit.
Variables (env : Env) (st : State) (d : obj).

(** No record loaded: line 77 returns. *)
Lemma handleSubmit_no_client (s0 : State) :
  client st = None ->
  run env (handleSubmit st d) s0 = mkRun s0 [] (Returned tt).
Proof. intros Hc. unfold handleSubmit. rewrite Hc. reflexivity. Qed.

(** The submitted branch is not in [branches]: line 84 throws. *)
Lemma handleSubmit_unknown_branch (c : obj) (s0 : State) :
  client st = Some c ->
  branch_exists (branches st) (get d "branchId") = false ->
  log (run env (handleSubmit st d) s0) =
    [ Did (SetIsSubmitting true);
      Did (ConsoleError (ErrorObj "Selected branch does not exist"));
      Did (SetIsSubmitting false);
      Did (ToastA (update_error_toast "Selected branch does not exist")) ].
Proof.
  intros Hc Hb. unfold handleSubmit. rewrite Hc, Hb. reflexivity.
Qed.

(** The update resolves with [success]. *)
Lemma handleSubmit_saved (c : obj) (res : ApiResult) (s0 : State) :
  client st = Some c ->
  branch_exists (branches st) (get d "branchId") = true ->
  updateClient env (merged c d) = inr res ->
  success res = true ->
  log (run env (handleSubmit st d) s0) =
    [ Did (SetIsSubmitting true);
      Requested (UpdateClient (merged c d));
      Did (SetIsSubmitting false);
      Did (ToastA updated_toast);
      Did (Navigate "/clients") ].
Proof.
  intros Hc Hb Hu Hs. unfold handleSubmit. rewrite Hc, Hb. simpl.
  rewrite Hu. simpl. rewrite Hs. reflexivity.
Qed.

(** The update resolves without [success]. *)
Lemma handleSubmit_refused (c : obj) (res : ApiResult) (s0 : State) :
  client st = Some c ->
  branch_exists (branches st) (get d "branchId") = true ->
  updateClient env (merged c d) = inr res ->
  success res = false ->
  log (run env (handleSubmit st d) s0) =
    [ Did (SetIsSubmitting true);
      Requested (UpdateClient (merged c d));
      Did (SetIsSubmitting false);
      Did (ToastA (update_error_toast (message res))) ].
Proof.
  intros Hc Hb Hu Hs. unfold handleSubmit. rewrite Hc, Hb. simpl.
  rewrite Hu. simpl. rewrite Hs. reflexivity.
Qed.

(** The update rejects. *)
Lemma handleSubmit_update_rejected (c : obj) (e : thrown) (s0 : State) :
  client st = Some c ->
  branch_exists (branches st) (get d "branchId") = true ->
  updateClient env (merged c d) = inl e ->
  log (run env (handleSubmit st d) s0) =
    [ Did (SetIsSubmitting true);
      Requested (UpdateClient (merged c d));
      Did (ConsoleError e);
      Did (SetIsSubmitting false);
      Did (ToastA (update_error_toast
                     match e with
                     | ErrorObj m => m
                     | OtherThrown => unexpected
                     end)) ].
Proof.
  intros Hc Hb Hu. unfold handleSubmit. rewrite Hc, Hb. simpl.
  rewrite Hu. reflexivity.
Qed.

(** With a record loaded and a known branch, one invocation issues the
    update exactly once, whatever the update answers. *)
Lemma handleSubmit_updates_once (c : obj) (s0 : State) :
  client st = Some c ->
  branch_exists (branches st) (get d "branchId") = true ->
  updates (log (run env (handleSubmit st d) s0)) = [merged c d].
Proof.
  intros Hc Hb.
  destruct (updateClient env (merged c d)) as [e | res] eqn:Hu.
  - by rewrite (handleSubmit_update_rejected c e s0).
  - destruct (success res) eqn:Hs.
    + by rewrite (handleSubmit_saved c res s0).
    + by rewrite (handleSubmit_refused c res s0).
Qed.

(** [handleSubmit] catches whatever is thrown: it always returns. *)
Lemma handleSubmit_returns (s0 : State) :
  result (run env (handleSubmit st d) s0) = Returned tt.
Proof.
  unfold handleSubmit. destruct (client st) as [c |]; [| reflexivity].
  destruct (branch_exists (branches st) (get d "branchId")); simpl;
    [| reflexivity].
  destruct (updateClient env (merged c d)) as [e | res]; simpl;
    [reflexivity |].
  destruct (success res); reflexivity.
Qed.

End HandleSubmit.

(** Without an [id] the effect does not load, and the page keeps showing
    the loading line. *)
Lemma effect_without_id (env : Env) (id : option string) :
  match id with Some i => truthy i = false | None => True end ->
  run env (effect id) initial_state = mkRun initial_state [] (Returned tt)
  /\ workflow_state initial_state = Loading.
Proof.
  intros H. unfold effect. destruct id as [i |]; [rewrite H |]; by split.
Qed.

(** ** The workflow state *)

Lemma ready_inv (st : State) (c : obj) (bs : list Branch.t) :
  workflow_state st = Ready c bs ->
  client st = Some c /\ branches st = bs
  /\ isLoading st = false /\ isSubmitting st = false.
Proof.
  unfold workflow_state, form_state.
  destruct st as [cl br [] sub er]; simpl; [discriminate |].
  destruct er as [m |]; [destruct (truthy m); [discriminate |] |];
    destruct cl as [c' |]; try discriminate;
    destruct sub; try discriminate; intros [= -> ->]; auto.
Qed.

Lemma submitting_inv (st : State) (c : obj) (bs : list Branch.t) :
  workflow_state st = Submitting c bs ->
  client st = Some c /\ branches st = bs
  /\ isLoading st = false /\ isSubmitting st = true.
Proof.
  unfold workflow_state, form_state.
  destruct st as [cl br [] sub er]; simpl; [discriminate |].
  destruct er as [m |]; [destruct (truthy m); [discriminate |] |];
    destruct cl as [c' |]; try discriminate;
    destruct sub; try discriminate; intros [= -> ->]; auto.
Qed.

(** A submit that resets [isSubmitting] leaves an idle form as it was. *)
Lemma ready_after_reset (st : State) (c : obj) (bs : list Branch.t) :
  workflow_state st = Ready c bs ->
  apply_action (SetIsSubmitting false)
    (apply_action (SetIsSubmitting true) st) = st.
Proof.
  intros H. apply ready_inv in H as (_ & _ & _ & Hs).
  destruct st as [cl br ld sub er]; simpl in *. by subst.
Qed.

(** ** The claims *)

(** The state after a failed record fetch, in full.  The load never
    navigates.  It ends in [Error] with the generic message when the record
    fetch rejected or the reference fetch failed too, and with the message
    of the failed result when that message is not empty; with an empty
    message and a reference fetch that did not fail, [error] is falsy and
    the page falls through to the form or to nothing. *)
Lemma failed_record_fetch_state (env : Env) (id : string) (st : State) :
  fetch_failed (fetchClientById env id) = true ->
  let r := run env (loadData id) st in
  navigations (log r) = []
  /\ workflow_state (final r) =
       match fetchClientById env id,
             branches_failure (selectActiveBranches env) with
       | inr res, None =>
           if truthy (message res) then Error (message res)
           else form_state (final r)
       | _, _ => Error unexpected
       end.
Proof.
  intros Hfail r. subst r. rewrite run_final_replay.
  destruct (loadData_cases env id)
    as [[e Hf] | (res & Hf & [[e Hb] | [(b & bs & Hs) | (resp & Hs & Hn)]])].
  - by rewrite (loadData_rejected env id st e Hf), Hf.
  - rewrite (loadData_branches_failed env id st res e Hf Hb), Hf, Hb.
    unfold record_step. by destruct res as [[] [c |] m].
  - rewrite (loadData_rows env id st res b bs Hf Hs), Hf, Hs.
    rewrite Hf in Hfail. unfold record_step.
    destruct res as [[] [c |] m]; simpl in *; try discriminate;
      (split; [reflexivity |]); unfold workflow_state; simpl;
      by destruct (truthy m).
  - rewrite (loadData_no_rows env id st res resp Hf Hs Hn), Hf, Hs.
    rewrite Hf in Hfail.
    change (branches_failure (inr resp)) with (branchesError resp).
    assert (branchesError resp = None) as ->.
    { unfold no_rows in Hn. by destruct (branchesError resp). }
    unfold record_step.
    destruct res as [[] [c |] m]; simpl in *; try discriminate;
      (split; [reflexivity |]); unfold workflow_state; simpl;
      by destruct (truthy m).
Qed.

(** C1.  The claim asks for the [Error] state after every failed record
    fetch; the code misses one case.  When the fetch resolves without
    success and with an empty message, and the reference fetch brings its
    rows, line 36 stores the empty string in [error], the test of line 145
    takes it for no error, and the page, mounted with no record, shows
    neither the loading line, nor the error panel, nor the form. *)
Theorem C1_empty_message_shows_no_error :
  let r := run Scenario.env_silent (loadData "7") initial_state in
  fetch_failed (fetchClientById Scenario.env_silent "7") = true
  /\ log r =
       [ Did (SetIsLoading true); Did (SetError None);
         Requested (FetchClientById "7"); Did (SetError (Some ""));
         Requested SelectActiveBranches;
         Did (SetBranches Scenario.two_branches); Did (SetIsLoading false) ]
  /\ last (pages (log r) initial_state) = Some (Mounted (final r))
  /\ error (final r) = Some ""
  /\ workflow_state (final r) = Blank
  /\ ~ exists m, workflow_state (final r) = Error m.
Proof.
  vm_compute. repeat split. intros [m Hm]. discriminate.
Qed.

(** C2.  A submit from [Ready] whose [branchId] is not the id of any
    branch of the loaded set (the test of line 83 finds none, see
    [branch_exists_false]) issues no update (no awaited call at all),
    shows exactly one notification, the destructive one, and leaves the
    workflow in [Ready] with its state unchanged. *)
Theorem C2_unknown_branch_is_rejected
    (env : Env) (st : State) (c d : obj) (bs : list Branch.t) :
  workflow_state st = Ready c bs ->
  branch_exists bs (get d "branchId") = false ->
  let r := run env (handleSubmit st d) st in
  updates (log r) = []
  /\ requests (log r) = []
  /\ toasts (log r) = [update_error_toast "Selected branch does not exist"]
  /\ navigations (log r) = []
  /\ final r = st
  /\ workflow_state (final r) = Ready c bs.
Proof.
  intros Hready Hnot r. subst r.
  pose proof (ready_inv st c bs Hready) as (Hc & Hbs & _ & _).
  assert (branch_exists (branches st) (get d "branchId") = false) as Hb.
  { by rewrite Hbs. }
  assert (final (run env (handleSubmit st d) st) = st) as Hfin.
  { rewrite run_final_replay, (handleSubmit_unknown_branch env st d c st Hc Hb).
    exact (ready_after_reset st c bs Hready). }
  rewrite Hfin, (handleSubmit_unknown_branch env st d c st Hc Hb).
  repeat split; try reflexivity. exact Hready.
Qed.

Lemma C2_witness :
  let r := run Scenario.env_ok
             (handleSubmit Scenario.ready Scenario.edit_unknown_branch)
             Scenario.ready in
  updates (log r) = []
  /\ requests (log r) = []
  /\ toasts (log r) = [update_error_toast "Selected branch does not exist"]
  /\ navigations (log r) = []
  /\ final r = Scenario.ready
  /\ workflow_state (final r) = Ready Scenario.client42 Scenario.two_branches.
Proof.
  apply (C2_unknown_branch_is_rejected Scenario.env_ok Scenario.ready
           Scenario.client42 Scenario.edit_unknown_branch Scenario.two_branches).
  - reflexivity.
  - vm_compute. reflexivity.
Defined.

(** C3 (amended).  [handleSubmit] tests only that a record is loaded, not
    [isSubmitting]: invoked while the workflow is in [Submitting] with the
    id of a branch of the loaded set (the test of line 83 finds one, see
    [branch_exists_true]), it issues the update again, exactly once for
    this invocation. *)
Theorem C3_submit_while_submitting_updates_again
    (env : Env) (st : State) (c d : obj) (bs : list Branch.t) :
  workflow_state st = Submitting c bs ->
  branch_exists bs (get d "branchId") = true ->
  let r := run env (handleSubmit st d) st in
  updates (log r) = [merged c d]
  /\ take 2 (log r) =
       [Did (SetIsSubmitting true); Requested (UpdateClient (merged c d))].
Proof.
  intros Hsub Hex r. subst r.
  pose proof (submitting_inv st c bs Hsub) as (Hc & Hbs & _ & _).
  assert (branch_exists (branches st) (get d "branchId") = true) as Hb.
  { by rewrite Hbs. }
  split; [by apply handleSubmit_updates_once |].
  destruct (updateClient env (merged c d)) as [e | res] eqn:Hu.
  - by rewrite (handleSubmit_update_rejected env st d c e st).
  - destruct (success res) eqn:Hs.
    + by rewrite (handleSubmit_saved env st d c res st).
    + by rewrite (handleSubmit_refused env st d c res st).
Qed.

Lemma C3_witness :
  let r := run Scenario.env_ok
             (handleSubmit Scenario.submitting Scenario.edit_ok)
             Scenario.submitting in
  updates (log r) = [merged Scenario.client42 Scenario.edit_ok]
  /\ take 2 (log r) =
       [Did (SetIsSubmitting true);
        Requested (UpdateClient (merged Scenario.client42 Scenario.edit_ok))].
Proof.
  apply (C3_submit_while_submitting_updates_again Scenario.env_ok
           Scenario.submitting Scenario.client42 Scenario.edit_ok
           Scenario.two_branches).
  - reflexivity.
  - vm_compute. reflexivity.
Defined.

(** C3 as stated fails.  A first submit from [Ready] runs up to its
    [await] and leaves the workflow in [Submitting] with its update in
    flight; a second submit then runs up to its own [await]: it is not
    ignored, and the cycle has issued two updates. *)
Lemma C3_counterexample :
  let '(s1, l1, _) :=
    start (handleSubmit Scenario.ready Scenario.edit_ok) Scenario.ready in
  let '(s2, l2, _) := start (handleSubmit s1 Scenario.edit_ok) s1 in
  workflow_state s1 = Submitting Scenario.client42 Scenario.two_branches
  /\ l2 ≠ []
  /\ updates (l1 ++ l2) =
       [merged Scenario.client42 Scenario.edit_ok;
        merged Scenario.client42 Scenario.edit_ok].
Proof.
  vm_compute. split; [reflexivity |]. split; [discriminate | reflexivity].
Qed.

(** C4.  When the record fetch brings the record and the reference fetch
    succeeds without rows, the load ends in [Ready] with the record and the
    fallback set, which is the three literal entries, and shows exactly one
    notification, the warning. *)
Theorem C4_empty_reference_set_falls_back
    (env : Env) (id : string) (st : State) (c : obj) (m : string)
    (resp : BranchesResponse) :
  fetchClientById env id = inr {| success := true; data := Some c; message := m |} ->
  selectActiveBranches env = inr resp ->
  no_rows resp = true ->
  isSubmitting st = false ->
  let r := run env (loadData id) st in
  workflow_state (final r) = Ready c fallback_branches
  /\ fallback_branches =
       [ Branch.mk "1" "Main Branch"; Branch.mk "2" "East Branch";
         Branch.mk "3" "West Branch" ]
  /\ toasts (log r) = [mock_warning]
  /\ toast_variant mock_warning = VWarning.
Proof.
  intros Hf Hs Hn Hsub r. subst r.
  rewrite run_final_replay, (loadData_no_rows env id st _ resp Hf Hs Hn).
  repeat split. unfold workflow_state, form_state. simpl. by rewrite Hsub.
Qed.

Lemma C4_witness :
  let r := run Scenario.env_no_rows (loadData "42") initial_state in
  workflow_state (final r) = Ready Scenario.client42 fallback_branches
  /\ fallback_branches =
       [ Branch.mk "1" "Main Branch"; Branch.mk "2" "East Branch";
         Branch.mk "3" "West Branch" ]
  /\ toasts (log r) = [mock_warning]
  /\ toast_variant mock_warning = VWarning.
Proof.
  apply (C4_empty_reference_set_falls_back Scenario.env_no_rows "42"
           initial_state Scenario.client42 "" (Scenario.rows []));
    reflexivity.
Defined.

(** C5.  When the reference fetch fails (it rejects or resolves with an
    error) after the record fetch resolved, successfully or not, the load
    ends in [Error] with the generic message; [branches] is left as it
    was, so the fallback set is not installed, and no notification is
    shown. *)
Theorem C5_reference_fetch_failure_is_error
    (env : Env) (id : string) (st : State) (res : ApiResult) (e : thrown) :
  fetchClientById env id = inr res ->
  branches_failure (selectActiveBranches env) = Some e ->
  let r := run env (loadData id) st in
  workflow_state (final r) = Error unexpected
  /\ branches (final r) = branches st
  /\ (Did (SetBranches fallback_branches) ∉ log r)
  /\ toasts (log r) = [].
Proof.
  intros Hf Hb r. subst r.
  rewrite run_final_replay, (loadData_branches_failed env id st res e Hf Hb).
  unfold record_step.
  destruct res as [[] [c |] m]; simpl; repeat split; try reflexivity;
    intros Hin; not_in_list Hin.
Qed.

Lemma C5_witness :
  let r := run Scenario.env_branches_error (loadData "42") initial_state in
  workflow_state (final r) = Error unexpected
  /\ branches (final r) = branches initial_state
  /\ (Did (SetBranches fallback_branches) ∉ log r)
  /\ toasts (log r) = [].
Proof.
  apply (C5_reference_fetch_failure_is_error Scenario.env_branches_error "42"
           initial_state (Scenario.found Scenario.client42) OtherThrown);
    reflexivity.
Defined.

(** C6.  On a successful update of a submit from [Ready] with the id of a
    branch of the loaded set, the handler shows the success notification,
    the only one, and navigates to ["/clients"] exactly once, as its last
    effect, and returns.  The page is committed twice: in [Submitting]
    when the handler suspends on the update, and unmounted when it ends,
    the reset of [isSubmitting] being committed together with the
    navigation.  So the page is never in [Ready] again, and nothing
    follows. *)
Theorem C6_successful_update_navigates_away
    (env : Env) (st : State) (c d : obj) (bs : list Branch.t)
    (res : ApiResult) :
  workflow_state st = Ready c bs ->
  branch_exists bs (get d "branchId") = true ->
  updateClient env (merged c d) = inr res ->
  success res = true ->
  let r := run env (handleSubmit st d) st in
  toasts (log r) = [updated_toast]
  /\ toast_variant updated_toast = VDefault
  /\ navigations (log r) = ["/clients"]
  /\ last (log r) = Some (Did (Navigate "/clients"))
  /\ (exists sub,
        pages (log r) st = [Mounted sub; Unmounted]
        /\ workflow_state sub = Submitting c bs)
  /\ (forall s, Mounted s ∈ pages (log r) st -> workflow_state s ≠ Ready c bs)
  /\ result r = Returned tt.
Proof.
  intros Hready Hex Hu Hs r. subst r.
  pose proof (ready_inv st c bs Hready) as (Hc & Hbs & Hl & Hsub).
  assert (branch_exists (branches st) (get d "branchId") = true) as Hb.
  { by rewrite Hbs. }
  assert (workflow_state (apply_action (SetIsSubmitting true) st)
          = Submitting c bs) as Hsubmitting.
  { destruct st as [cl br ld sub er]; simpl in *; subst.
    unfold workflow_state in *. simpl in *.
    destruct er as [m |]; [destruct (truthy m); [discriminate |] |];
      reflexivity. }
  rewrite handleSubmit_returns.
  rewrite (handleSubmit_saved env st d c res st Hc Hb Hu Hs).
  do 4 (split; [reflexivity |]).
  split; [eexists; split; [reflexivity | exact Hsubmitting] |].
  split; [| reflexivity].
  intros s Hin. unfold pages in Hin. simpl in Hin.
  apply elem_of_cons in Hin as [Heq | Hin].
  - injection Heq as ->.
    change (workflow_state (apply_action (SetIsSubmitting true) st) ≠ Ready c bs).
    rewrite Hsubmitting. discriminate.
  - apply list_elem_of_singleton in Hin. discriminate.
Qed.

Lemma C6_witness :
  let r := run Scenario.env_ok
             (handleSubmit Scenario.ready Scenario.edit_ok) Scenario.ready in
  toasts (log r) = [updated_toast]
  /\ toast_variant updated_toast = VDefault
  /\ navigations (log r) = ["/clients"]
  /\ last (log r) = Some (Did (Navigate "/clients"))
  /\ (exists sub,
        pages (log r) Scenario.ready = [Mounted sub; Unmounted]
        /\ workflow_state sub
           = Submitting Scenario.client42 Scenario.two_branches)
  /\ (forall s, Mounted s ∈ pages (log r) Scenario.ready ->
        workflow_state s ≠ Ready Scenario.client42 Scenario.two_branches)
  /\ result r = Returned tt.
Proof.
  apply (C6_successful_update_navigates_away Scenario.env_ok Scenario.ready
           Scenario.client42 Scenario.edit_ok Scenario.two_branches
           Scenario.saved).
  - reflexivity.
  - vm_compute. reflexivity.
  - reflexivity.
  - reflexivity.
Defined.

(** The reference set a load installs when the reference fetch did not
    fail: the rows, or the mock data when there are none. *)
Lemma loadData_ready
    (env : Env) (id : string) (st : State) (c : obj) (m : string)
    (resp : BranchesResponse) :
  fetchClientById env id = inr {| success := true; data := Some c; message := m |} ->
  selectActiveBranches env = inr resp ->
  branchesError resp = None ->
  isSubmitting st = false ->
  workflow_state (final (run env (loadData id) st)) =
    Ready c match branchesData resp with
            | Some (b :: bs) => b :: bs
            | _ => fallback_branches
            end.
Proof.
  intros Hf Hs He Hsub. rewrite run_final_replay.
  destruct resp as [bd be]. simpl in He. subst be.
  destruct bd as [[| b bs] |].
  - rewrite (loadData_no_rows env id st _ _ Hf Hs eq_refl).
    unfold workflow_state, form_state. simpl. by rewrite Hsub.
  - rewrite (loadData_rows env id st _ b bs Hf Hs).
    unfold workflow_state, form_state. simpl. by rewrite Hsub.
  - rewrite (loadData_no_rows env id st _ _ Hf Hs eq_refl).
    unfold workflow_state, form_state. simpl. by rewrite Hsub.
Qed.

(** C7.  The load does not look at the [branchId] of the record it loads:
    whenever the record fetch brings a record and the reference fetch does
    not fail, the load ends in [Ready] with that record and the reference
    set installed (the rows, or the mock data), whether or not the
    record's own [branchId] is in that set.  The [branchId] of a submit
    is checked against that set, both ways: with the id of one of its
    branches the handler goes on to the update, issued once with the
    merged record, which carries the submitted [branchId]; with any other
    value, the loaded record's own stale [branchId] included, it makes no
    call at all and shows the destructive notification for the branch. *)
Theorem C7_stale_branch_loads_and_new_branch_is_checked
    (env : Env) (id : string) (st : State) (c d : obj) (m : string)
    (resp : BranchesResponse) :
  fetchClientById env id = inr {| success := true; data := Some c; message := m |} ->
  selectActiveBranches env = inr resp ->
  branchesError resp = None ->
  isSubmitting st = false ->
  let bs := match branchesData resp with
            | Some (b :: bs) => b :: bs
            | _ => fallback_branches
            end in
  let loaded := final (run env (loadData id) st) in
  let r := run env (handleSubmit loaded d) loaded in
  workflow_state loaded = Ready c bs
  /\ (branch_exists bs (get d "branchId") = true ->
      updates (log r) = [merged c d]
      /\ take 2 (log r) =
           [Did (SetIsSubmitting true); Requested (UpdateClient (merged c d))]
      /\ get (merged c d) "branchId" = get d "branchId")
  /\ (branch_exists bs (get d "branchId") = false ->
      requests (log r) = []
      /\ toasts (log r) = [update_error_toast "Selected branch does not exist"]
      /\ final r = loaded).
Proof.
  intros Hf Hs He Hsub bs loaded r.
  assert (workflow_state loaded = Ready c bs) as Hready
    by exact (loadData_ready env id st c m resp Hf Hs He Hsub).
  pose proof (ready_inv loaded c bs Hready) as (Hc & Hbs & _ & _).
  split; [exact Hready |]. subst r. split.
  - intros Hex.
    assert (branch_exists (branches loaded) (get d "branchId") = true) as Hb
      by (by rewrite Hbs).
    split; [by apply handleSubmit_updates_once |]. split.
    + destruct (updateClient env (merged c d)) as [e | res] eqn:Hu.
      * by rewrite (handleSubmit_update_rejected env loaded d c e loaded Hc Hb Hu).
      * destruct (success res) eqn:Hsucc.
        -- by rewrite (handleSubmit_saved env loaded d c res loaded Hc Hb Hu Hsucc).
        -- by rewrite (handleSubmit_refused env loaded d c res loaded Hc Hb Hu Hsucc).
    + apply branch_exists_true in Hex as (b & _ & Hd).
      unfold get in Hd |- *. unfold merged.
      rewrite lookup_insert_ne by done. rewrite lookup_union.
      destruct (d !! "branchId") as [v |]; [| discriminate].
      by destruct (c !! "branchId").
  - intros Hex.
    assert (branch_exists (branches loaded) (get d "branchId") = false) as Hb
      by (by rewrite Hbs).
    rewrite run_final_replay.
    rewrite (handleSubmit_unknown_branch env loaded d c loaded Hc Hb).
    do 2 (split; [reflexivity |]).
    exact (ready_after_reset loaded c bs Hready).
Qed.

(** The scenario of the specification: the record's [branchId] is ["9"],
    the rows are ["1"] and ["2"].  The load ends in [Ready]; the edit that
    chooses ["1"] reaches the update; an edit that submits the record's
    own ["9"] again is rejected. *)
Lemma C7_witness :
  let loaded := final (run Scenario.env_ok (loadData "42") initial_state) in
  let r := run Scenario.env_ok (handleSubmit loaded Scenario.edit_ok) loaded in
  let r' := run Scenario.env_ok (handleSubmit loaded Scenario.client42) loaded in
  branch_exists Scenario.two_branches (get Scenario.client42 "branchId") = false
  /\ workflow_state loaded = Ready Scenario.client42 Scenario.two_branches
  /\ (updates (log r) = [merged Scenario.client42 Scenario.edit_ok]
      /\ take 2 (log r) =
           [Did (SetIsSubmitting true);
            Requested (UpdateClient (merged Scenario.client42 Scenario.edit_ok))]
      /\ get (merged Scenario.client42 Scenario.edit_ok) "branchId"
         = get Scenario.edit_ok "branchId")
  /\ (requests (log r') = []
      /\ toasts (log r') = [update_error_toast "Selected branch does not exist"]
      /\ final r' = loaded).
Proof.
  intros loaded r r'.
  destruct (C7_stale_branch_loads_and_new_branch_is_checked Scenario.env_ok
              "42" initial_state Scenario.client42 Scenario.edit_ok ""
              (Scenario.rows Scenario.two_branches)
              eq_refl eq_refl eq_refl eq_refl) as (Hready & Haccept & _).
  destruct (C7_stale_branch_loads_and_new_branch_is_checked Scenario.env_ok
              "42" initial_state Scenario.client42 Scenario.client42 ""
              (Scenario.rows Scenario.two_branches)
              eq_refl eq_refl eq_refl eq_refl) as (_ & _ & Hreject).
  split; [vm_compute; reflexivity |]. split; [exact Hready |].
  split; [apply Haccept | apply Hreject]; vm_compute; reflexivity.
Defined.

(** C8 (amended).  A result that arrives after teardown is acted on like
    any other.  Torn down while the record fetch is in flight, the load
    goes on with all it does after that fetch; torn down while the
    reference fetch is in flight, with all it does after that one: in both
    cases it still calls [setIsLoading(false)], and still shows the
    warning when it falls back on the mock data.  Torn down while the
    update is in flight, the submit goes on with all it does after the
    update: it still calls [setIsSubmitting(false)], still shows its one
    notification and, when the update succeeded, still navigates to
    ["/clients"]. *)
Theorem C8_results_after_teardown_are_processed
    (env : Env) (id : string) (st : State) (c d : obj) :
  let load := log (run env (loadData id) st) in
  let load0 := after_teardown (log (run_teardown env 0 (loadData id) st)) in
  let load1 := after_teardown (log (run_teardown env 1 (loadData id) st)) in
  let submit := log (run env (handleSubmit st d) st) in
  let submit0 := after_teardown (log (run_teardown env 0 (handleSubmit st d) st)) in
  (load0 = drop 3 load
   /\ Did (SetIsLoading false) ∈ load0
   /\ toasts load0 = (if falls_back env id then [mock_warning] else []))
  /\ (forall res, fetchClientById env id = inr res ->
      load1 = drop 5 load
      /\ Did (SetIsLoading false) ∈ load1
      /\ toasts load1 = (if falls_back env id then [mock_warning] else []))
  /\ (client st = Some c ->
      branch_exists (branches st) (get d "branchId") = true ->
      submit0 = drop 2 submit
      /\ Did (SetIsSubmitting false) ∈ submit0
      /\ length (toasts submit0) = 1
      /\ (forall res, updateClient env (merged c d) = inr res ->
                      success res = true ->
                      toasts submit0 = [updated_toast]
                      /\ navigations submit0 = ["/clients"])).
Proof.
  intros load load0 load1 submit submit0.
  subst load load0 load1 submit submit0. split; [| split].
  - unfold falls_back, loadData. simpl.
    destruct (fetchClientById env id) as [e | [[] [cl |] m]]; simpl;
      try (destruct (selectActiveBranches env) as [e' | [[[| b bs] |] [e' |]]];
           simpl);
      (split; [reflexivity | split; [in_list | reflexivity]]).
  - intros res Hf. unfold falls_back, loadData. simpl. rewrite Hf.
    destruct res as [[] [cl |] m]; simpl;
      destruct (selectActiveBranches env) as [e' | [[[| b bs] |] [e' |]]];
      simpl; (split; [reflexivity | split; [in_list | reflexivity]]).
  - intros Hc Hb. unfold handleSubmit. rewrite Hc, Hb. simpl.
    destruct (updateClient env (merged c d)) as [e | [[] dt m]]; simpl;
      (split; [reflexivity | split; [in_list | split; [reflexivity |]]]);
      intros res [= <-] Hs; simpl in Hs; try discriminate; by split.
Qed.

Lemma C8_witness :
  let load1 :=
    after_teardown
      (log (run_teardown Scenario.env_no_rows 1 (loadData "42") initial_state)) in
  let submit0 :=
    after_teardown
      (log (run_teardown Scenario.env_ok 0
              (handleSubmit Scenario.ready Scenario.edit_ok) Scenario.ready)) in
  (Did (SetIsLoading false) ∈ load1 /\ toasts load1 = [mock_warning])
  /\ (Did (SetIsSubmitting false) ∈ submit0
      /\ toasts submit0 = [updated_toast]
      /\ navigations submit0 = ["/clients"]).
Proof.
  intros load1 submit0.
  destruct (C8_results_after_teardown_are_processed Scenario.env_no_rows "42"
              initial_state Scenario.client42 Scenario.edit_ok)
    as (_ & Hload & _).
  destruct (Hload (Scenario.found Scenario.client42) eq_refl)
    as (_ & Hset & Htoast).
  destruct (C8_results_after_teardown_are_processed Scenario.env_ok "42"
              Scenario.ready Scenario.client42 Scenario.edit_ok)
    as (_ & _ & Hsubmit).
  assert (branch_exists (branches Scenario.ready)
            (get Scenario.edit_ok "branchId") = true) as Hb
    by (vm_compute; reflexivity).
  destruct (Hsubmit eq_refl Hb) as (_ & Hreset & _ & Hsaved).
  destruct (Hsaved Scenario.saved eq_refl eq_refl) as (Ht & Hn).
  split; [split; [exact Hset | exact Htoast] |].
  split; [exact Hreset | split; [exact Ht | exact Hn]].
Defined.

(** C8 as stated fails.  Torn down while the reference fetch is in flight,
    the load still installs the fallback set, shows the warning and clears
    [isLoading] when the empty result arrives; torn down while the update
    is in flight, the submit still resets [isSubmitting], shows the
    success notification and navigates. *)
Lemma C8_counterexample :
  after_teardown
    (log (run_teardown Scenario.env_no_rows 1 (loadData "42") initial_state))
    = [ Did (SetBranches fallback_branches); Did (ToastA mock_warning);
        Did (SetIsLoading false) ]
  /\ after_teardown
       (log (run_teardown Scenario.env_ok 0
               (handleSubmit Scenario.ready Scenario.edit_ok) Scenario.ready))
     = [ Did (SetIsSubmitting false); Did (ToastA updated_toast);
         Did (Navigate "/clients") ].
Proof. split; vm_compute; reflexivity. Qed.

(** C9 (amended).  The two fetches are issued one after the other: when
    [loadData] first returns to the event loop only the record fetch has
    been issued, and the reference fetch is issued by the continuation,
    after the record fetch resolved, and not at all when it rejected. *)
Theorem C9_fetches_are_sequential (env : Env) (id : string) (st : State) :
  requests (start (loadData id) st).1.2 = [FetchClientById id]
  /\ (exists k, (start (loadData id) st).2 = Pending (FetchClientById id) k)
  /\ requests (log (run env (loadData id) st)) =
       match fetchClientById env id with
       | inl _ => [FetchClientById id]
       | inr _ => [FetchClientById id; SelectActiveBranches]
       end.
Proof.
  split; [reflexivity |]. split; [eexists; reflexivity |].
  destruct (loadData_cases env id)
    as [[e Hf] | (res & Hf & [[e Hb] | [(b & bs & Hs) | (resp & Hs & Hn)]])].
  - by rewrite (loadData_rejected env id st e Hf), Hf.
  - rewrite (loadData_branches_failed env id st res e Hf Hb), Hf.
    unfold record_step. by destruct res as [[] [c |] m].
  - rewrite (loadData_rows env id st res b bs Hf Hs), Hf.
    unfold record_step. by destruct res as [[] [c |] m].
  - rewrite (loadData_no_rows env id st res resp Hf Hs Hn), Hf.
    unfold record_step. by destruct res as [[] [c |] m].
Qed.

(** C9 as stated fails: the reference fetch waits for the record fetch.
    It has not been issued when the load first suspends, and it is never
    issued when the record fetch rejects. *)
Lemma C9_counterexample :
  (SelectActiveBranches ∉ requests (start (loadData "7") initial_state).1.2)
  /\ SelectActiveBranches ∉
       requests (log (run Scenario.env_rejects (loadData "7") initial_state)).
Proof.
  split; vm_compute; intros Hin;
    apply list_elem_of_singleton in Hin; discriminate.
Qed.

(** C10.  With no record loaded [handleSubmit] returns at once: nothing is
    logged (no check, no update, no notification, no setter call) and the
    state is the one it was invoked in. *)
Theorem C10_submit_without_record_does_nothing
    (env : Env) (st : State) (d : obj) :
  client st = None ->
  run env (handleSubmit st d) st = mkRun st [] (Returned tt).
Proof. intros Hc. by apply handleSubmit_no_client. Qed.

Lemma C10_witness :
  run Scenario.env_ok (handleSubmit initial_state Scenario.edit_ok) initial_state
  = mkRun initial_state [] (Returned tt).
Proof.
  apply (C10_submit_without_record_does_nothing Scenario.env_ok initial_state
           Scenario.edit_ok).
  reflexivity.
Defined.

(** * Further properties of the handlers *)

(** ** The state a handler leaves *)

(** The five cells after a load, from the two answers. *)
Lemma loadData_final (env : Env) (id : string) (st : State) :
  final (run env (loadData id) st) =
    {| client := match fetched_record (fetchClientById env id) with
                 | Some d => Some d
                 | None => client st
                 end;
       branches := match fetchClientById env id, selectActiveBranches env with
                   | inr _, inr resp =>
                       match branchesError resp, branchesData resp with
                       | Some _, _ => branches st
                       | None, Some (b :: bs) => b :: bs
                       | None, _ => fallback_branches
                       end
                   | _, _ => branches st
                   end;
       isLoading := false;
       isSubmitting := isSubmitting st;
       error := match fetchClientById env id with
                | inl _ => Some unexpected
                | inr res =>
                    match branches_failure (selectActiveBranches env) with
                    | Some _ => Some unexpected
                    | None =>
                        match fetched_record (inr res) with
                        | Some _ => None
                        | None => Some (message res)
                        end
                    end
                end |}.
Proof.
  rewrite run_final_replay.
  destruct (loadData_cases env id)
    as [[e Hf] | (res & Hf & [[e Hb] | [(b & bs & Hs) | (resp & Hs & Hn)]])].
  - by rewrite (loadData_rejected env id st e Hf), Hf.
  - rewrite (loadData_branches_failed env id st res e Hf Hb), Hf, Hb.
    unfold record_step.
    destruct (selectActiveBranches env) as [e' | [bd be]]; simpl in Hb;
      [| subst be]; by destruct res as [[] [c |] m].
  - rewrite (loadData_rows env id st res b bs Hf Hs), Hf, Hs.
    unfold record_step. by destruct res as [[] [c |] m].
  - rewrite (loadData_no_rows env id st res resp Hf Hs Hn), Hf, Hs.
    change (branches_failure (inr resp)) with (branchesError resp).
    unfold no_rows in Hn. unfold record_step.
    destruct (branchesError resp); [discriminate |].
    destruct (branchesData resp) as [[| b bs] |]; try discriminate;
      by destruct res as [[] [c |] m].
Qed.

(** A submit touches [isSubmitting] only, and leaves it false. *)
Lemma handleSubmit_final (env : Env) (st : State) (d : obj) (s0 : State) :
  final (run env (handleSubmit st d) s0) =
    match client st with
    | Some _ => apply_action (SetIsSubmitting false) s0
    | None => s0
    end.
Proof.
  rewrite run_final_replay.
  destruct (client st) as [c |] eqn:Hc;
    [| by rewrite (handleSubmit_no_client env st d s0 Hc)].
  destruct (branch_exists (branches st) (get d "branchId")) eqn:Hb;
    [| by rewrite (handleSubmit_unknown_branch env st d c s0 Hc Hb)].
  destruct (updateClient env (merged c d)) as [e | res] eqn:Hu;
    [by rewrite (handleSubmit_update_rejected env st d c e s0 Hc Hb Hu) |].
  destruct (success res) eqn:Hs.
  - by rewrite (handleSubmit_saved env st d c res s0 Hc Hb Hu Hs).
  - by rewrite (handleSubmit_refused env st d c res s0 Hc Hb Hu Hs).
Qed.

(** ** [loadData] *)

(** X1.  Whatever the two fetches answer, [loadData] returns (the promise
    it gives is never rejected), its last effect is [setIsLoading(false)],
    and [isLoading] is false afterwards. *)
Theorem load_always_finishes (env : Env) (id : string) (st : State) :
  let r := run env (loadData id) st in
  result r = Returned tt
  /\ last (log r) = Some (Did (SetIsLoading false))
  /\ isLoading (final r) = false.
Proof.
  intros r. subst r. split; [apply loadData_returns |].
  split; [| by rewrite loadData_final].
  destruct (loadData_cases env id)
    as [[e Hf] | (res & Hf & [[e Hb] | [(b & bs & Hs) | (resp & Hs & Hn)]])].
  - by rewrite (loadData_rejected env id st e Hf).
  - by rewrite (loadData_branches_failed env id st res e Hf Hb).
  - by rewrite (loadData_rows env id st res b bs Hf Hs).
  - by rewrite (loadData_no_rows env id st res resp Hf Hs Hn).
Qed.

(** X2.  From its first effect until its last the load keeps the page on
    the loading line: after any proper, non-empty prefix of its effects
    the workflow state is [Loading], whatever was fetched so far. *)
Theorem load_shows_loading_until_done
    (env : Env) (id : string) (st : State) (n : nat) :
  0 < n < length (log (run env (loadData id) st)) ->
  workflow_state (replay (take n (log (run env (loadData id) st))) st) = Loading.
Proof.
  destruct (loadData_cases env id)
    as [[e Hf] | (res & Hf & [[e Hb] | [(b & bs & Hs) | (resp & Hs & Hn)]])].
  - rewrite (loadData_rejected env id st e Hf). intros Hlt.
    do 7 (destruct n as [| n]; [simpl in Hlt; first [lia | reflexivity] |]).
    simpl in Hlt. lia.
  - rewrite (loadData_branches_failed env id st res e Hf Hb).
    unfold record_step. destruct res as [[] [c |] m]; intros Hlt;
      do 9 (destruct n as [| n]; [simpl in Hlt; first [lia | reflexivity] |]);
      simpl in Hlt; lia.
  - rewrite (loadData_rows env id st res b bs Hf Hs).
    unfold record_step. destruct res as [[] [c |] m]; intros Hlt;
      do 8 (destruct n as [| n]; [simpl in Hlt; first [lia | reflexivity] |]);
      simpl in Hlt; lia.
  - rewrite (loadData_no_rows env id st res resp Hf Hs Hn).
    unfold record_step. destruct res as [[] [c |] m]; intros Hlt;
      do 9 (destruct n as [| n]; [simpl in Hlt; first [lia | reflexivity] |]);
      simpl in Hlt; lia.
Qed.

Lemma load_shows_loading_until_done_witness :
  workflow_state
    (replay (take 5 (log (run Scenario.env_ok (loadData "42") initial_state)))
       initial_state) = Loading.
Proof.
  apply (load_shows_loading_until_done Scenario.env_ok "42" initial_state 5).
  vm_compute. split; lia.
Defined.

(** X3.  The load never clears the [client] cell: afterwards it holds the
    fetched record when the fetch brought one, and what it held before
    otherwise, also when the load ends in an error. *)
Theorem load_client_cell (env : Env) (id : string) (st : State) :
  client (final (run env (loadData id) st)) =
    match fetched_record (fetchClientById env id) with
    | Some d => Some d
    | None => client st
    end.
Proof. by rewrite loadData_final. Qed.

(** X4.  The [branches] cell after the load: the rows when the reference
    fetch brought some, the mock data when it brought none, and what the
    cell held before when the reference fetch failed or was never made.
    The outcome of the record fetch plays no part once it has resolved: a
    record that was not found does not keep the branches from being
    installed. *)
Theorem load_branches_cell (env : Env) (id : string) (st : State) :
  branches (final (run env (loadData id) st)) =
    match fetchClientById env id, selectActiveBranches env with
    | inr _, inr resp =>
        match branchesError resp, branchesData resp with
        | Some _, _ => branches st
        | None, Some (b :: bs) => b :: bs
        | None, _ => fallback_branches
        end
    | _, _ => branches st
    end.
Proof. by rewrite loadData_final. Qed.

(** X5.  The [error] cell after the load does not depend on what it held
    before: the generic message when something was thrown (the record
    fetch rejected or the reference fetch failed), the message of the
    record result when the fetch resolved without a record, and [null]
    when the record was fetched and the reference fetch did not fail. *)
Theorem load_error_cell (env : Env) (id : string) (st : State) :
  error (final (run env (loadData id) st)) =
    match fetchClientById env id with
    | inl _ => Some unexpected
    | inr res =>
        match branches_failure (selectActiveBranches env) with
        | Some _ => Some unexpected
        | None =>
            match fetched_record (inr res) with
            | Some _ => None
            | None => Some (message res)
            end
        end
    end.
Proof. by rewrite loadData_final. Qed.

(** X6.  The load shows at most one notification, the warning about the
    mock data, and shows it exactly when the reference fetch was made and
    came back without error and without rows; this is so also when the
    record itself was not found.  It never navigates and never calls the
    update. *)
Theorem load_notifications (env : Env) (id : string) (st : State) :
  let r := run env (loadData id) st in
  toasts (log r) = (if falls_back env id then [mock_warning] else [])
  /\ navigations (log r) = []
  /\ updates (log r) = [].
Proof.
  intros r. subst r. unfold falls_back.
  destruct (loadData_cases env id)
    as [[e Hf] | (res & Hf & [[e Hb] | [(b & bs & Hs) | (resp & Hs & Hn)]])].
  - by rewrite (loadData_rejected env id st e Hf), Hf.
  - rewrite (loadData_branches_failed env id st res e Hf Hb), Hf.
    assert (match selectActiveBranches env with
            | inl _ => false
            | inr resp => no_rows resp
            end = false) as ->.
    { destruct (selectActiveBranches env) as [e' | [bd be]]; [done |].
      simpl in Hb. subst be. reflexivity. }
    unfold record_step. by destruct res as [[] [c |] m].
  - rewrite (loadData_rows env id st res b bs Hf Hs), Hf, Hs.
    unfold record_step. by destruct res as [[] [c |] m].
  - rewrite (loadData_no_rows env id st res resp Hf Hs Hn), Hf, Hs, Hn.
    unfold record_step. by destruct res as [[] [c |] m].
Qed.

(** X7.  When the page shows the form after a load, the form has branches
    to choose from: the reference set of a [Ready] or [Submitting] state
    reached by [loadData] is never empty. *)
Theorem load_form_has_branches
    (env : Env) (id : string) (st : State) (c : obj) (bs : list Branch.t) :
  workflow_state (final (run env (loadData id) st)) = Ready c bs
  \/ workflow_state (final (run env (loadData id) st)) = Submitting c bs ->
  bs ≠ [].
Proof.
  intros Hform.
  assert (branches (final (run env (loadData id) st)) = bs) as Hbs.
  { destruct Hform as [H | H];
      [apply ready_inv in H | apply submitting_inv in H]; tauto. }
  assert (error (final (run env (loadData id) st)) ≠ Some unexpected) as Herr.
  { intros He. unfold workflow_state in Hform. rewrite He in Hform. simpl in Hform.
    destruct (isLoading _); destruct Hform; discriminate. }
  rewrite loadData_final in Hbs, Herr. simpl in Hbs, Herr.
  destruct (fetchClientById env id) as [e | res]; [done |].
  destruct (selectActiveBranches env) as [e | [bd [e |]]]; simpl in *; try done.
  destruct bd as [[| b bs'] |]; by subst bs.
Qed.

Lemma load_form_has_branches_witness : Scenario.two_branches ≠ [].
Proof.
  apply (load_form_has_branches Scenario.env_ok "42" initial_state
           Scenario.client42 Scenario.two_branches).
  left. reflexivity.
Defined.

(** X8.  Loading again with the same answers changes nothing: the state
    after a second load is the state after the first. *)
Theorem load_idempotent (env : Env) (id : string) (st : State) :
  final (run env (loadData id) (final (run env (loadData id) st)))
  = final (run env (loadData id) st).
Proof.
  rewrite (loadData_final env id (final _)), (loadData_final env id st). simpl.
  f_equal.
  - by destruct (fetched_record (fetchClientById env id)).
  - destruct (fetchClientById env id) as [e | res]; [done |].
    by destruct (selectActiveBranches env) as [e | [[[| b bs] |] [e |]]].
Qed.

(** ** The effect *)



(** ** [handleSubmit] *)

Lemma ready_reset (st : State) (c : obj) (bs : list Branch.t) :
  workflow_state st = Ready c bs ->
  apply_action (SetIsSubmitting false) st = st.
Proof.
  intros H. apply ready_inv in H as (_ & _ & _ & Hs).
  destruct st as [cl br ld sub er]; simpl in *. by subst.
Qed.

(** The test of line 83 fails when there is no branch, or when the
    submitted [branchId] is not a string. *)
Lemma branch_exists_not_string (bs : list Branch.t) (v : jsval) :
  bs = [] \/ (forall s, v ≠ JStr s) ->
  branch_exists bs v = false.
Proof.
  intros [-> | Hv]; [reflexivity |].
  apply branch_exists_false. intros b _ Heq. by apply (Hv (Branch.id b)).
Qed.

(** X10.  When the update resolves without [success], a submit from
    [Ready] shows exactly one notification, the destructive one carrying
    the message of the result, does not navigate, and leaves the state as
    it was, so the form is back in [Ready]. *)
Theorem submit_refused
    (env : Env) (st : State) (c d : obj) (bs : list Branch.t) (res : ApiResult) :
  workflow_state st = Ready c bs ->
  branch_exists bs (get d "branchId") = true ->
  updateClient env (merged c d) = inr res ->
  success res = false ->
  let r := run env (handleSubmit st d) st in
  toasts (log r) = [update_error_toast (message res)]
  /\ navigations (log r) = []
  /\ updates (log r) = [merged c d]
  /\ final r = st.
Proof.
  intros Hready Hex Hu Hs r. subst r.
  pose proof (ready_inv st c bs Hready) as (Hc & Hbs & _ & _).
  rewrite <- Hbs in Hex.
  rewrite handleSubmit_final, Hc, (ready_reset st c bs Hready).
  by rewrite (handleSubmit_refused env st d c res st Hc Hex Hu Hs).
Qed.

Lemma submit_refused_witness :
  let env := {| fetchClientById := fetchClientById Scenario.env_ok;
                selectActiveBranches := selectActiveBranches Scenario.env_ok;
                updateClient := fun _ => inr Scenario.not_found |} in
  let r := run env (handleSubmit Scenario.ready Scenario.edit_ok) Scenario.ready in
  toasts (log r) = [update_error_toast "Client not found"]
  /\ navigations (log r) = []
  /\ updates (log r) = [merged Scenario.client42 Scenario.edit_ok]
  /\ final r = Scenario.ready.
Proof.
  intros env.
  apply (submit_refused env Scenario.ready Scenario.client42 Scenario.edit_ok
           Scenario.two_branches Scenario.not_found).
  - reflexivity.
  - vm_compute. reflexivity.
  - reflexivity.
  - reflexivity.
Defined.

(** X11.  When the update rejects, a submit from [Ready] logs the thrown
    value, shows exactly one notification, the destructive one, with the
    message of the thrown [Error] or the generic message when what was
    thrown is no [Error], does not navigate, and leaves the state as it
    was. *)
Theorem submit_update_rejected
    (env : Env) (st : State) (c d : obj) (bs : list Branch.t) (e : thrown) :
  workflow_state st = Ready c bs ->
  branch_exists bs (get d "branchId") = true ->
  updateClient env (merged c d) = inl e ->
  let r := run env (handleSubmit st d) st in
  toasts (log r) =
    [update_error_toast match e with
                        | ErrorObj m => m
                        | OtherThrown => unexpected
                        end]
  /\ Did (ConsoleError e) ∈ log r
  /\ navigations (log r) = []
  /\ final r = st
  /\ result r = Returned tt.
Proof.
  intros Hready Hex Hu r. subst r.
  pose proof (ready_inv st c bs Hready) as (Hc & Hbs & _ & _).
  rewrite <- Hbs in Hex.
  rewrite handleSubmit_final, Hc, (ready_reset st c bs Hready).
  rewrite handleSubmit_returns.
  rewrite (handleSubmit_update_rejected env st d c e st Hc Hex Hu).
  repeat split. in_list.
Qed.

Lemma submit_update_rejected_witness :
  let env := {| fetchClientById := fetchClientById Scenario.env_ok;
                selectActiveBranches := selectActiveBranches Scenario.env_ok;
                updateClient := fun _ => inl OtherThrown |} in
  let r := run env (handleSubmit Scenario.ready Scenario.edit_ok) Scenario.ready in
  toasts (log r) = [update_error_toast unexpected]
  /\ Did (ConsoleError OtherThrown) ∈ log r
  /\ navigations (log r) = []
  /\ final r = Scenario.ready
  /\ result r = Returned tt.
Proof.
  intros env.
  apply (submit_update_rejected env Scenario.ready Scenario.client42
           Scenario.edit_ok Scenario.two_branches OtherThrown).
  - reflexivity.
  - vm_compute. reflexivity.
  - reflexivity.
Defined.

(** X12.  Whatever the submitted data and whatever the update answers,
    [handleSubmit] returns (its promise is never rejected) and touches no
    cell but [isSubmitting], which it leaves false whenever a record is
    loaded: no outcome leaves the form stuck in [Submitting]. *)
Theorem submit_touches_only_isSubmitting (env : Env) (st : State) (d : obj) :
  let r := run env (handleSubmit st d) st in
  result r = Returned tt
  /\ client (final r) = client st
  /\ branches (final r) = branches st
  /\ isLoading (final r) = isLoading st
  /\ error (final r) = error st
  /\ isSubmitting (final r) =
       match client st with
       | Some _ => false
       | None => isSubmitting st
       end.
Proof.
  intros r. subst r. rewrite handleSubmit_final, handleSubmit_returns.
  destruct (client st) as [c |] eqn:Hc; simpl; rewrite ?Hc; by repeat split.
Qed.

(** X13.  With a record loaded every submit shows exactly one
    notification.  It is the success notification exactly when the
    submitted branch exists and the update resolved with [success], and
    the handler navigates, to ["/clients"] and once, exactly in that
    case. *)
Theorem submit_one_notification (env : Env) (st : State) (c d : obj) :
  client st = Some c ->
  let r := run env (handleSubmit st d) st in
  let saved :=
    branch_exists (branches st) (get d "branchId") = true
    /\ exists res, updateClient env (merged c d) = inr res /\ success res = true in
  length (toasts (log r)) = 1
  /\ (toasts (log r) = [updated_toast] <-> saved)
  /\ (navigations (log r) = ["/clients"] <-> saved)
  /\ (navigations (log r) = [] <-> ~ saved).
Proof.
  intros Hc r saved. subst r.
  assert (forall l : list entry,
            length (toasts l) = 1 -> toasts l ≠ [updated_toast] ->
            navigations l = [] -> ~ saved ->
            length (toasts l) = 1
            /\ (toasts l = [updated_toast] <-> saved)
            /\ (navigations l = ["/clients"] <-> saved)
            /\ (navigations l = [] <-> ~ saved)) as Hfailed.
  { intros l Hone Htoast Hnav Hnot. rewrite Hnav.
    split; [exact Hone |]. split; [split; [done | intros H; by destruct Hnot] |].
    split; [split; [discriminate | intros H; by destruct Hnot] | done]. }
  destruct (branch_exists (branches st) (get d "branchId")) eqn:Hb.
  - destruct (updateClient env (merged c d)) as [e | res] eqn:Hu.
    + rewrite (handleSubmit_update_rejected env st d c e st Hc Hb Hu).
      apply Hfailed; try done. by intros (_ & res & [=] & _).
    + destruct (success res) eqn:Hs.
      * assert saved as Hsaved by (split; eauto).
        rewrite (handleSubmit_saved env st d c res st Hc Hb Hu Hs). simpl.
        split; [reflexivity |]. split; [done |]. split; [done |].
        split; [discriminate | intros Hn; by destruct (Hn Hsaved)].
      * rewrite (handleSubmit_refused env st d c res st Hc Hb Hu Hs).
        apply Hfailed; try done.
        intros (_ & res' & [= <-] & Hs'). congruence.
  - rewrite (handleSubmit_unknown_branch env st d c st Hc Hb).
    apply Hfailed; try done. by intros ([=] & _).
Qed.

Lemma submit_one_notification_witness :
  let r := run Scenario.env_ok
             (handleSubmit Scenario.ready Scenario.edit_ok) Scenario.ready in
  length (toasts (log r)) = 1
  /\ toasts (log r) = [updated_toast]
  /\ navigations (log r) = ["/clients"].
Proof.
  destruct (submit_one_notification Scenario.env_ok Scenario.ready
              Scenario.client42 Scenario.edit_ok eq_refl)
    as (Hone & Htoast & Hnav & _).
  assert (branch_exists (branches Scenario.ready)
            (get Scenario.edit_ok "branchId") = true
          /\ exists res,
               updateClient Scenario.env_ok
                 (merged Scenario.client42 Scenario.edit_ok) = inr res
               /\ success res = true) as Hsaved.
  { split; [vm_compute; reflexivity |]. exists Scenario.saved. by split. }
  split; [exact Hone |]. split; [by apply Htoast | by apply Hnav].
Defined.

(** X14.  A submit whose [branchId] is not a string (the property is
    missing, [undefined] or [null]), or one made while no branch is
    loaded, is always rejected: no awaited call is made, and the one
    notification is the destructive one for the branch. *)
Theorem submit_without_branch_is_rejected
    (env : Env) (st : State) (c d : obj) :
  client st = Some c ->
  branches st = [] \/ (forall s, get d "branchId" ≠ JStr s) ->
  let r := run env (handleSubmit st d) st in
  requests (log r) = []
  /\ toasts (log r) = [update_error_toast "Selected branch does not exist"]
  /\ navigations (log r) = [].
Proof.
  intros Hc Hno r. subst r.
  pose proof (branch_exists_not_string (branches st) (get d "branchId") Hno) as Hb.
  by rewrite (handleSubmit_unknown_branch env st d c st Hc Hb).
Qed.

Lemma submit_without_branch_is_rejected_witness :
  let r := run Scenario.env_ok (handleSubmit Scenario.ready ∅) Scenario.ready in
  requests (log r) = []
  /\ toasts (log r) = [update_error_toast "Selected branch does not exist"]
  /\ navigations (log r) = [].
Proof.
  apply (submit_without_branch_is_rejected Scenario.env_ok Scenario.ready
           Scenario.client42 ∅).
  - reflexivity.
  - right. intros s. vm_compute. discriminate.
Defined.

(** X15.  [handleSubmit] never fetches: the only call it awaits is the
    update, and it awaits it at most once per invocation. *)
Theorem submit_awaits_only_the_update (env : Env) (st : State) (d : obj) :
  let r := run env (handleSubmit st d) st in
  requests (log r) = UpdateClient <$> updates (log r)
  /\ length (requests (log r)) <= 1.
Proof.
  intros r. subst r.
  destruct (client st) as [c |] eqn:Hc;
    [| rewrite (handleSubmit_no_client env st d st Hc); simpl; split; [done | lia]].
  destruct (branch_exists (branches st) (get d "branchId")) eqn:Hb;
    [| rewrite (handleSubmit_unknown_branch env st d c st Hc Hb); simpl;
       split; [done | lia]].
  destruct (updateClient env (merged c d)) as [e | res] eqn:Hu;
    [rewrite (handleSubmit_update_rejected env st d c e st Hc Hb Hu); simpl;
     split; [done | lia] |].
  destruct (success res) eqn:Hs.
  - rewrite (handleSubmit_saved env st d c res st Hc Hb Hu Hs). simpl.
    split; [done | lia].
  - rewrite (handleSubmit_refused env st d c res st Hc Hb Hu Hs). simpl.
    split; [done | lia].
Qed.

(** X16.  A submit from [Ready] decides about the branch before it first
    returns to the event loop.  With a branch of the loaded set it
    suspends on the update with the workflow in [Submitting]; with any
    other it has already finished, without suspending, and the state is
    the one it started in. *)
Theorem submit_until_first_await
    (st : State) (c d : obj) (bs : list Branch.t) :
  workflow_state st = Ready c bs ->
  let s := start (handleSubmit st d) st in
  if branch_exists bs (get d "branchId")
  then workflow_state s.1.1 = Submitting c bs
       /\ s.1.2 = [Did (SetIsSubmitting true); Requested (UpdateClient (merged c d))]
       /\ exists k, s.2 = Pending (UpdateClient (merged c d)) k
  else s.1.1 = st
       /\ requests s.1.2 = []
       /\ s.2 = Finished (Returned tt).
Proof.
  intros Hready s. subst s.
  pose proof (ready_inv st c bs Hready) as (Hc & Hbs & Hl & Hsub).
  unfold handleSubmit. rewrite Hc, Hbs.
  destruct (branch_exists bs (get d "branchId")); simpl.
  - split; [| split; [reflexivity | eexists; reflexivity]].
    destruct st as [cl br ld sub er]; simpl in *; subst.
    unfold workflow_state in *. simpl in *.
    destruct er as [m |]; [destruct (truthy m); [discriminate |] |]; reflexivity.
  - split; [| by split].
    destruct st as [cl br ld sub er]; simpl in *. by subst.
Qed.

Lemma submit_until_first_await_witness :
  let s := start (handleSubmit Scenario.ready Scenario.edit_unknown_branch)
             Scenario.ready in
  s.1.1 = Scenario.ready
  /\ requests s.1.2 = []
  /\ s.2 = Finished (Returned tt).
Proof.
  exact (submit_until_first_await Scenario.ready Scenario.client42
           Scenario.edit_unknown_branch Scenario.two_branches eq_refl).
Defined.

(** X17.  Where a submit started from [Ready] leaves the page.  When it
    was saved (the branch exists and the update resolved with [success])
    the page is unmounted at the end, without having been in [Ready]
    again.  In every other outcome (unknown branch, update refused, update
    rejected) the page is still mounted at the end, in the state the
    submit started in, so in [Ready] with the same record and the same
    branches. *)
Theorem submit_from_ready_ends_in_ready_or_gone
    (env : Env) (st : State) (c d : obj) (bs : list Branch.t) :
  workflow_state st = Ready c bs ->
  let r := run env (handleSubmit st d) st in
  let saved :=
    branch_exists bs (get d "branchId") = true
    /\ exists res, updateClient env (merged c d) = inr res /\ success res = true in
  (saved ->
   last (pages (log r) st) = Some Unmounted
   /\ forall s, Mounted s ∈ pages (log r) st -> workflow_state s = Submitting c bs)
  /\ (~ saved ->
      last (pages (log r) st) = Some (Mounted st)
      /\ final r = st).
Proof.
  intros Hready r saved. subst r.
  pose proof (ready_inv st c bs Hready) as (Hc & Hbs & Hl & Hsub).
  assert (apply_action (SetIsSubmitting false)
            (apply_action (SetIsSubmitting true) st) = st) as Hreset
    by exact (ready_after_reset st c bs Hready).
  assert (workflow_state (apply_action (SetIsSubmitting true) st)
          = Submitting c bs) as Hsubmitting.
  { destruct st as [cl br ld sub er]; simpl in *; subst.
    unfold workflow_state in *. simpl in *.
    destruct er as [m |]; [destruct (truthy m); [discriminate |] |];
      reflexivity. }
  rewrite run_final_replay. subst saved.
  destruct (branch_exists bs (get d "branchId")) eqn:Hb0;
    assert (branch_exists (branches st) (get d "branchId") = _) as Hb
      by (rewrite Hbs; exact Hb0).
  - destruct (updateClient env (merged c d)) as [e | res] eqn:Hu.
    + rewrite (handleSubmit_update_rejected env st d c e st Hc Hb Hu).
      split; [by intros (_ & res & [=] & _) |]. intros _.
      split; [simpl | exact Hreset]. f_equal. f_equal. exact Hreset.
    + destruct (success res) eqn:Hs.
      * rewrite (handleSubmit_saved env st d c res st Hc Hb Hu Hs).
        split; [| intros Hn; destruct Hn; split; eauto]. intros _.
        split; [reflexivity |]. intros s Hin. unfold pages in Hin. simpl in Hin.
        apply elem_of_cons in Hin as [Heq | Hin];
          [| apply list_elem_of_singleton in Hin; discriminate].
        injection Heq as ->. exact Hsubmitting.
      * rewrite (handleSubmit_refused env st d c res st Hc Hb Hu Hs).
        split; [intros (_ & res' & [= <-] & Hs'); congruence |]. intros _.
        split; [simpl | exact Hreset]. f_equal. f_equal. exact Hreset.
  - rewrite (handleSubmit_unknown_branch env st d c st Hc Hb).
    split; [by intros ([=] & _) |]. intros _.
    split; [simpl | exact Hreset]. f_equal. f_equal. exact Hreset.
Qed.

Lemma submit_from_ready_ends_in_ready_or_gone_witness :
  let r := run Scenario.env_ok
             (handleSubmit Scenario.ready Scenario.edit_ok) Scenario.ready in
  let r' := run Scenario.env_ok
              (handleSubmit Scenario.ready Scenario.edit_unknown_branch)
              Scenario.ready in
  last (pages (log r) Scenario.ready) = Some Unmounted
  /\ last (pages (log r') Scenario.ready) = Some (Mounted Scenario.ready)
  /\ final r' = Scenario.ready.
Proof.
  intros r r'.
  destruct (submit_from_ready_ends_in_ready_or_gone Scenario.env_ok
              Scenario.ready Scenario.client42 Scenario.edit_ok
              Scenario.two_branches eq_refl) as (Hsaved & _).
  destruct (submit_from_ready_ends_in_ready_or_gone Scenario.env_ok
              Scenario.ready Scenario.client42 Scenario.edit_unknown_branch
              Scenario.two_branches eq_refl) as (_ & Hnot).
  split.
  - apply Hsaved. split; [vm_compute; reflexivity |].
    exists Scenario.saved. split; reflexivity.
  - apply Hnot. intros (Hb & _). vm_compute in Hb. discriminate.
Defined.

(** ** The record sent to the update *)

(** X18.  Every property of the record sent to the update:
    [dateOfBirth] is always an own property and always the one of the
    submitted data, [undefined] when the data has none, whatever the
    loaded record holds; any other property is the one of the data when
    the data has it, and the one of the loaded record otherwise. *)
Theorem merged_lookup (c d : obj) (k : string) :
  merged c d !! k =
    if decide (k = "dateOfBirth") then Some (get d "dateOfBirth")
    else match d !! k with
         | Some v => Some v
         | None => c !! k
         end.
Proof.
  unfold merged. case_decide as Hk.
  - subst k. apply lookup_insert_eq.
  - rewrite lookup_insert_ne by done. rewrite lookup_union.
    by destruct (d !! k), (c !! k).
Qed.

(** X19.  Merging the same data once more changes nothing. *)
Theorem merged_idempotent (c d : obj) :
  merged (merged c d) d = merged c d.
Proof.
  apply map_eq. intros k.
  unfold merged at 1. destruct (decide (k = "dateOfBirth")) as [-> | Hk].
  - rewrite lookup_insert_eq. unfold merged. by rewrite lookup_insert_eq.
  - rewrite lookup_insert_ne by done. rewrite lookup_union.
    unfold merged. rewrite lookup_insert_ne by done. rewrite lookup_union.
    by destruct (d !! k), (c !! k).
Qed.

(** X20.  The record sent to the update has the properties of the loaded
    record, those of the submitted data, and [dateOfBirth]; no property of
    the loaded record is dropped. *)
Theorem merged_dom (c d : obj) :
  dom (merged c d) = {["dateOfBirth"]} ∪ dom d ∪ dom c.
Proof.
  unfold merged. rewrite dom_insert_L, dom_union_L. by rewrite (assoc_L (∪)).
Qed.

(** ** The branch test *)

(** X21.  The test of line 83 goes by id alone: it succeeds exactly when
    the submitted value is a string that is the id of some loaded branch,
    whatever the names. *)
Theorem branch_exists_by_id (bs : list Branch.t) (v : jsval) :
  branch_exists bs v = true <-> exists s, v = JStr s /\ s ∈ Branch.id <$> bs.
Proof.
  rewrite branch_exists_true. split.
  - intros (b & Hin & ->). exists (Branch.id b). split; [done |].
    apply list_elem_of_fmap. eauto.
  - intros (s & -> & Hin). apply list_elem_of_fmap in Hin as (b & -> & Hin). eauto.
Qed.

(** ** A load followed by a submit *)

(** X22.  After a load that fell back on the mock data, a submit is let
    through to the update exactly when its [branchId] is one of the mock
    ids ["1"], ["2"], ["3"], and the record sent then carries the mock
    id. *)
Theorem mock_branch_ids_reach_the_update
    (env : Env) (id : string) (st : State) (c d : obj) (m : string)
    (resp : BranchesResponse) :
  fetchClientById env id = inr {| success := true; data := Some c; message := m |} ->
  selectActiveBranches env = inr resp ->
  no_rows resp = true ->
  let loaded := final (run env (loadData id) st) in
  let r := run env (handleSubmit loaded d) loaded in
  (get d "branchId" ∈ [JStr "1"; JStr "2"; JStr "3"] ->
   updates (log r) = [merged c d]
   /\ get (merged c d) "branchId" = get d "branchId")
  /\ (get d "branchId" ∉ [JStr "1"; JStr "2"; JStr "3"] ->
      updates (log r) = []).
Proof.
  intros Hf Hs Hn loaded r.
  assert (client loaded = Some c /\ branches loaded = fallback_branches)
    as [Hc Hbs].
  { subst loaded. rewrite loadData_final, Hf, Hs. simpl.
    unfold no_rows in Hn. destruct (branchesError resp); [discriminate |].
    by destruct (branchesData resp) as [[| b bs] |]. }
  assert (branch_exists fallback_branches (get d "branchId") = true
          <-> get d "branchId" ∈ [JStr "1"; JStr "2"; JStr "3"]) as Hmock.
  { split.
    - intros E. apply branch_exists_true in E as (b & Hin & ->).
      unfold fallback_branches in Hin.
      repeat (apply elem_of_cons in Hin as [-> | Hin]; [simpl; in_list |]).
      by apply elem_of_nil in Hin.
    - intros Hin.
      repeat (apply elem_of_cons in Hin as [-> | Hin]; [reflexivity |]).
      by apply elem_of_nil in Hin. }
  subst r. split.
  - intros Hin. apply Hmock in Hin as Hb. rewrite <- Hbs in Hb.
    split; [by apply handleSubmit_updates_once |].
    unfold get at 1. unfold merged. rewrite lookup_insert_ne by done.
    rewrite lookup_union. unfold get.
    repeat (apply elem_of_cons in Hin as [Hin | Hin];
            [unfold get in Hin; destruct (d !! "branchId"); simpl in *;
             [by destruct (c !! "branchId") | discriminate] |]).
    by apply elem_of_nil in Hin.
  - intros Hnot.
    assert (branch_exists (branches loaded) (get d "branchId") = false) as Hb.
    { rewrite Hbs. destruct (branch_exists _ _) eqn:E; [| reflexivity].
      destruct Hnot. by apply Hmock. }
    by rewrite (handleSubmit_unknown_branch env loaded d c loaded Hc Hb).
Qed.

Lemma mock_branch_ids_reach_the_update_witness :
  let loaded := final (run Scenario.env_no_rows (loadData "42") initial_state) in
  let r := run Scenario.env_no_rows (handleSubmit loaded Scenario.edit_ok) loaded in
  updates (log r) = [merged Scenario.client42 Scenario.edit_ok]
  /\ get (merged Scenario.client42 Scenario.edit_ok) "branchId"
     = get Scenario.edit_ok "branchId".
Proof.
  apply (mock_branch_ids_reach_the_update Scenario.env_no_rows "42"
           initial_state Scenario.client42 Scenario.edit_ok ""
           (Scenario.rows []) eq_refl eq_refl eq_refl).
  vm_compute. in_list.
Defined.
